(** * FinGuard AI dashboard: a shallow embedding of [frontend/frontend/src/App.js]

    The dashboard is one React component, [FinGuardDashboard].  Its data are
    object literals held in [useState] cells; its logic is one [filter] over
    the holdings ([driftAlerts]), one deferred handler ([handleRebalance]) and
    three inline [onClick] handlers.

    JavaScript numbers are IEEE-754 binary64 values, and so are the values of
    [PrimFloat.float]: a literal such as [175.20] below denotes the same double
    as in the source, and [Math.abs], [*], [+], [-], [/], [>] are the
    corresponding primitive operations. *)

From Stdlib Require Import List String Bool Arith Lia.
From Stdlib Require Import Floats.
Import ListNotations.

Local Open Scope string_scope.
Local Open Scope float_scope.
Local Open Scope list_scope.

Set Implicit Arguments.
Set Warnings "-inexact-float".

(** ** JavaScript numbers *)

Module Js.

Definition number := float.

(** [Math.abs] *)
Definition Math_abs (x : number) : number := PrimFloat.abs x.

(** [a > b]; false as soon as one side is NaN *)
Definition gt (a b : number) : bool := PrimFloat.ltb b a.

(** [a <= b] *)
Definition le (a b : number) : bool := PrimFloat.leb a b.

(** [a === b] on numbers *)
Definition eq (a b : number) : bool := PrimFloat.eqb a b.

(** [xs.reduce((s, x) => s + x, 0)] *)
Definition sum (xs : list number) : number :=
  fold_left PrimFloat.add xs 0.

End Js.

(** ** Data model (App.js, lines 12-73)

    Several object shapes share property names ([symbol], [value], [action],
    [target], [trades], [impact]), so each shape lives in a module of its
    own. *)

(** One element of [portfolio.holdings]. *)
Module Holding.
Record t := mk {
  symbol : string;
  name : string;
  qty : Js.number;
  price : Js.number;
  value : Js.number;
  allocation : Js.number;
  target : Js.number;
  drift : Js.number;
  category : string
}.
End Holding.

(** [portfolio.target] and [portfolio.current]: objects used as maps from a
    category name to a percentage, kept as the literal's property list. *)
Definition AllocationMap := list (string * Js.number).

(** Property read [m[k]]; [None] is [undefined]. *)
Fixpoint getProp (m : AllocationMap) (k : string) : option Js.number :=
  match m with
  | [] => None
  | (k', v) :: rest => if String.eqb k k' then Some v else getProp rest k
  end.

Module Portfolio.
Record t := mk {
  totalValue : Js.number;
  target : AllocationMap;
  current : AllocationMap;
  holdings : list Holding.t
}.
End Portfolio.

(** One element of an audit entry's [trades]. *)
Module Trade.
Record t := mk {
  action : string;
  symbol : string;
  amount : Js.number;
  value : Js.number
}.
End Trade.

Module Impact.
Record t := mk {
  riskReduction : string;
  expectedReturn : string;
  sharpeImprovement : string
}.
End Impact.

(** One element of [auditLog]. *)
Module AuditEntry.
Record t := mk {
  id : string;
  timestamp : string;
  action : string;
  reason : string;
  aiConfidence : Js.number;
  trades : list Trade.t;
  status : string;
  impact : Impact.t
}.


End AuditEntry.

(** The object passed to [setRebalanceResult] (lines 102-106). *)
Module RebalanceResult.
Record t := mk {
  trades : list Trade.t;
  impact : Impact.t;
  confidence : Js.number
}.
End RebalanceResult.

(** Initial value of the [portfolio] state cell (lines 12-35). *)
Definition portfolio : Portfolio.t := {|
  Portfolio.totalValue := 125420.50;
  Portfolio.target :=
    [("stocks", 40); ("crypto", 20); ("bonds", 25); ("etfs", 15)];
  Portfolio.current :=
    [("stocks", 35); ("crypto", 28); ("bonds", 22); ("etfs", 15)];
  Portfolio.holdings := [
    Holding.mk "AAPL" "Apple Inc." 50 175.20 8760 7.0 10 (-3.0) "stocks";
    Holding.mk "MSFT" "Microsoft" 30 380.50 11415 9.1 10 (-0.9) "stocks";
    Holding.mk "GOOGL" "Google" 20 142.30 2846 2.3 5 (-2.7) "stocks";
    Holding.mk "BTC" "Bitcoin" 0.5 62000 31000 24.7 15 9.7 "crypto";
    Holding.mk "ETH" "Ethereum" 2 2200 4400 3.5 5 (-1.5) "crypto";
    Holding.mk "VBMFX" "Vanguard Bonds" 250 110.20 27550 22.0 25 (-3.0) "bonds";
    Holding.mk "SPY" "S&P 500 ETF" 40 445.50 17820 14.2 15 (-0.8) "etfs"
  ]
|}.

(** Initial value of the [auditLog] state cell (lines 37-73). *)
Definition auditLog : list AuditEntry.t := [
  {| AuditEntry.id := "AL-20251018-001";
     AuditEntry.timestamp := "2025-10-18T09:15:23Z";
     AuditEntry.action := "Reduce BTC allocation by 9.7%";
     AuditEntry.reason := "Bitcoin allocation exceeded target by 9.7%. Volatility increased by 32% over past 7 days. Risk-adjusted return optimization suggests reallocation to lower-volatility assets.";
     AuditEntry.aiConfidence := 0.94;
     AuditEntry.trades := [
       Trade.mk "SELL" "BTC" 0.12 7440;
       Trade.mk "BUY" "AAPL" 25 4380;
       Trade.mk "BUY" "VBMFX" 28 3085
     ];
     AuditEntry.status := "pending";
     AuditEntry.impact :=
       Impact.mk "12.3%" "+2.1% annualized" "+0.15" |};
  {| AuditEntry.id := "AL-20251015-002";
     AuditEntry.timestamp := "2025-10-15T14:22:10Z";
     AuditEntry.action := "Rebalance stocks allocation";
     AuditEntry.reason := "Market correction detected. Tech sector down 5.2%. Portfolio stocks allocation fell below target threshold (35% vs 40% target).";
     AuditEntry.aiConfidence := 0.88;
     AuditEntry.trades := [
       Trade.mk "BUY" "GOOGL" 15 2134;
       Trade.mk "SELL" "VBMFX" 20 2204
     ];
     AuditEntry.status := "executed";
     AuditEntry.impact :=
       Impact.mk "3.1%" "+1.4% annualized" "+0.08" |}
].

(** ** Drift alerts (line 76) *)

(** The filter's callback, [h => Math.abs(h.drift) > 2.5], with the literal
    abstracted as [thresholdPercent]. *)
Definition exceeds (thresholdPercent : Js.number) (h : Holding.t) : bool :=
  Js.gt (Js.Math_abs (Holding.drift h)) thresholdPercent.

Definition violations (thresholdPercent : Js.number) (hs : list Holding.t)
  : list Holding.t :=
  filter (exceeds thresholdPercent) hs.

(** [const driftAlerts = portfolio.holdings.filter(h => Math.abs(h.drift) > 2.5)] *)
Definition driftAlerts (p : Portfolio.t) : list Holding.t :=
  filter (fun h => Js.gt (Js.Math_abs (Holding.drift h)) 2.5)
         (Portfolio.holdings p).

(** The banner's render condition, [driftAlerts.length > 0] (line 205). *)
Definition triggered (alerts : list Holding.t) : bool :=
  Nat.ltb 0 (List.length alerts).

(** The variable parts of the alert banner's sentence (lines 213-214):
    [{driftAlerts.length} asset(s) have drifted ... BTC is
    {driftAlerts[0].drift > 0 ? 'over' : 'under'}weighted by
    {Math.abs(driftAlerts[0].drift).toFixed(1)}%.]  The subject of the second
    sentence is the literal text [BTC]; [magnitude] is the number handed to
    [toFixed(1)]. *)
Module Banner.
Record t := mk {
  count : nat;
  subject : string;
  direction : string;
  magnitude : Js.number
}.
End Banner.

(** [None] when the banner is not rendered. *)
Definition alertBanner (p : Portfolio.t) : option Banner.t :=
  match driftAlerts p with
  | [] => None
  | first :: _ =>
      Some {| Banner.count := List.length (driftAlerts p);
              Banner.subject := "BTC";
              Banner.direction :=
                if Js.gt (Holding.drift first) 0 then "over" else "under";
              Banner.magnitude := Js.Math_abs (Holding.drift first) |}
  end.

(** ** Quantities the specification speaks about

    The component never adds up values; the sums below are the ones the
    specification words ("sum of asset values", "sum of BUY values"), written
    as the fold a JavaScript [reduce] performs. *)

(** value = quantity * price, checked with [===]. *)
Definition valueIsQtyTimesPrice (h : Holding.t) : bool :=
  Js.eq (Holding.value h) (PrimFloat.mul (Holding.qty h) (Holding.price h)).

(** Sum of the [value] properties of the holdings. *)
Definition holdingsValue (p : Portfolio.t) : Js.number :=
  Js.sum (map Holding.value (Portfolio.holdings p)).

(** Sum of the values of the holdings of one category. *)
Definition categoryValue (p : Portfolio.t) (c : string) : Js.number :=
  Js.sum (map Holding.value
            (filter (fun h => String.eqb (Holding.category h) c)
                    (Portfolio.holdings p))).

(** sum(asset values in category) / total value, as a fraction... *)
Definition categoryShare (p : Portfolio.t) (c : string) : Js.number :=
  PrimFloat.div (categoryValue p c) (Portfolio.totalValue p).

(** ... and as a percentage, the unit of [portfolio.current]. *)
Definition categoryPercent (p : Portfolio.t) (c : string) : Js.number :=
  PrimFloat.mul (categoryShare p c) 100.

(** Distance between two numbers, [Math.abs(a - b)]. *)
Definition dist (a b : Js.number) : Js.number :=
  Js.Math_abs (PrimFloat.sub a b).

Definition sideValue (side : string) (ts : list Trade.t) : Js.number :=
  Js.sum (map Trade.value
            (filter (fun t => String.eqb (Trade.action t) side) ts)).

(** sum(BUY values) - sum(SELL values) *)
Definition netCashFlow (ts : list Trade.t) : Js.number :=
  PrimFloat.sub (sideValue "BUY" ts) (sideValue "SELL" ts).

(** "Within the cash-drag tolerance": the component configures no tolerance,
    so it is an argument. *)
Definition withinTolerance (tolerance : Js.number) (ts : list Trade.t) : bool :=
  Js.le (Js.Math_abs (netCashFlow ts)) tolerance.




(** ** Component state and event handlers

    The cells of the component: four with a setter (lines 6-9) and two
    without ([const [portfolio] = useState(...)], [const [auditLog] =
    useState(...)]).  [timers] holds the callbacks registered by [setTimeout]
    and not run yet; a callback closes over the [auditLog] of the render that
    created it, which is all it reads. *)

Inductive Tab := dashboard | audit | settings.

Module State.
Record t := mk {
  activeTab : Tab;
  isRebalancing : bool;
  showRebalanceModal : bool;
  rebalanceResult : option RebalanceResult.t;
  portfolio : Portfolio.t;
  auditLog : list AuditEntry.t;
  timers : list (list AuditEntry.t)
}.
End State.

Definition initialState : State.t := {|
  State.activeTab := dashboard;
  State.isRebalancing := false;
  State.showRebalanceModal := false;
  State.rebalanceResult := None;
  State.portfolio := portfolio;
  State.auditLog := auditLog;
  State.timers := []
|}.

Definition setActiveTab (tab : Tab) (s : State.t) : State.t :=
  State.mk tab (State.isRebalancing s) (State.showRebalanceModal s)
    (State.rebalanceResult s) (State.portfolio s) (State.auditLog s)
    (State.timers s).

Definition setIsRebalancing (b : bool) (s : State.t) : State.t :=
  State.mk (State.activeTab s) b (State.showRebalanceModal s)
    (State.rebalanceResult s) (State.portfolio s) (State.auditLog s)
    (State.timers s).

Definition setShowRebalanceModal (b : bool) (s : State.t) : State.t :=
  State.mk (State.activeTab s) (State.isRebalancing s) b
    (State.rebalanceResult s) (State.portfolio s) (State.auditLog s)
    (State.timers s).

Definition setRebalanceResult (r : RebalanceResult.t) (s : State.t) : State.t :=
  State.mk (State.activeTab s) (State.isRebalancing s)
    (State.showRebalanceModal s) (Some r) (State.portfolio s)
    (State.auditLog s) (State.timers s).

(** [setTimeout(callback, 2500)]: the callback is queued. *)
Definition setTimeout (captured : list AuditEntry.t) (s : State.t) : State.t :=
  State.mk (State.activeTab s) (State.isRebalancing s)
    (State.showRebalanceModal s) (State.rebalanceResult s) (State.portfolio s)
    (State.auditLog s) (State.timers s ++ [captured]).

(** What running an event can do. *)
Inductive JsError := TypeError.

Inductive Outcome (A : Type) :=
| Done (a : A)
| NotOffered                (* the control is not rendered, or is disabled *)
| Throws (e : JsError).

Arguments Done {A} a.
Arguments NotOffered {A}.
Arguments Throws {A} e.

Definition bind {A B} (o : Outcome A) (k : A -> Outcome B) : Outcome B :=
  match o with
  | Done a => k a
  | NotOffered => NotOffered
  | Throws e => Throws e
  end.

(** [handleRebalance] up to the return of the click handler (lines 98-100
    and 108). *)
Definition handleRebalance (s : State.t) : State.t :=
  setTimeout (State.auditLog s) (setIsRebalancing true s).

(** The arrow function handed to [setTimeout] (lines 100-108).
    [auditLog[0]] is [undefined] on an empty array, and reading [.trades]
    of it throws. *)
Definition rebalanceCallback (captured : list AuditEntry.t) (s : State.t)
  : Outcome State.t :=
  match captured with
  | [] => Throws TypeError
  | first :: _ =>
      Done (setShowRebalanceModal true
             (setRebalanceResult
                {| RebalanceResult.trades := AuditEntry.trades first;
                   RebalanceResult.impact := AuditEntry.impact first;
                   RebalanceResult.confidence := AuditEntry.aiConfidence first |}
                (setIsRebalancing false s)))
  end.

(** Everything that can happen to the mounted component. *)
Inductive Event :=
| ClickTab (tab : Tab)        (* lines 154-166 *)
| ClickRebalanceNow           (* lines 218-225 *)
| TimerFires                  (* the oldest pending [setTimeout] callback runs *)
| ClickReviewLater            (* lines 508-513 *)
| ClickExecuteRebalance.      (* lines 514-522 *)

Definition isDashboard (tab : Tab) : bool :=
  match tab with dashboard => true | _ => false end.

(** The alert banner is part of the dashboard tab
    ([activeTab === 'dashboard' && ...], line 172) and is rendered there
    under [driftAlerts.length > 0] (line 205). *)
Definition bannerRendered (s : State.t) : bool :=
  isDashboard (State.activeTab s)
  && triggered (driftAlerts (State.portfolio s)).

(** The "Rebalance Now" button sits in the banner and carries
    [disabled={isRebalancing}]. *)
Definition rebalanceNowOffered (s : State.t) : bool :=
  bannerRendered s && negb (State.isRebalancing s).

(** The modal is rendered under [showRebalanceModal && rebalanceResult]. *)
Definition modalShown (s : State.t) : bool :=
  State.showRebalanceModal s
  && match State.rebalanceResult s with Some _ => true | None => false end.

Definition popTimer (s : State.t) : State.t :=
  State.mk (State.activeTab s) (State.isRebalancing s)
    (State.showRebalanceModal s) (State.rebalanceResult s) (State.portfolio s)
    (State.auditLog s) (tl (State.timers s)).

Definition step (s : State.t) (e : Event) : Outcome State.t :=
  match e with
  | ClickTab tab => Done (setActiveTab tab s)
  | ClickRebalanceNow =>
      if rebalanceNowOffered s then Done (handleRebalance s) else NotOffered
  | TimerFires =>
      match State.timers s with
      | [] => NotOffered
      | captured :: _ => rebalanceCallback captured (popTimer s)
      end
  | ClickReviewLater =>
      if modalShown s then Done (setShowRebalanceModal false s) else NotOffered
  | ClickExecuteRebalance =>
      if modalShown s
      then Done (setActiveTab audit (setShowRebalanceModal false s))
      else NotOffered
  end.

Fixpoint run (s : State.t) (es : list Event) : Outcome State.t :=
  match es with
  | [] => Done s
  | e :: rest => bind (step s e) (fun s' => run s' rest)
  end.

(** The statuses of the entries, in ledger order. *)
Definition statuses (log : list AuditEntry.t) : list string :=
  map AuditEntry.status log.

(** The allowed status graph of the specification. *)
Definition allowedTransition (from to : string) : bool :=
  (String.eqb from "pending" && String.eqb to "approved")
  || (String.eqb from "pending" && String.eqb to "rejected")
  || (String.eqb from "approved" && String.eqb to "executed").

(** The percentage recorded for a category is within [eps] of the share
    computed from the holdings. *)
Definition currentWithin (eps : Js.number) (p : Portfolio.t) (c : string)
  : bool :=
  match getProp (Portfolio.current p) c with
  | Some v => Js.gt eps (dist (categoryPercent p c) v)
  | None => false
  end.

(** The object [rebalanceCallback] builds from a ledger: the [trades],
    [impact] and [aiConfidence] of its first entry; [None] on an empty
    ledger, where the callback throws. *)
Definition planOf (log : list AuditEntry.t) : option RebalanceResult.t :=
  match log with
  | [] => None
  | first :: _ =>
      Some {| RebalanceResult.trades := AuditEntry.trades first;
              RebalanceResult.impact := AuditEntry.impact first;
              RebalanceResult.confidence := AuditEntry.aiConfidence first |}
  end.

(** States in which every pending callback closes over the current ledger
    and the modal result, if any, was copied from it.  The initial state is
    one, and events keep it so. *)
Definition consistent (s : State.t) : Prop :=
  Forall (fun captured => captured = State.auditLog s) (State.timers s)
  /\ (State.rebalanceResult s = None
      \/ State.rebalanceResult s = planOf (State.auditLog s)).

(** What the component renders from besides the two constant cells. *)
Module View.
Record t := mk {
  activeTab : Tab;
  isRebalancing : bool;
  showRebalanceModal : bool;
  rebalanceResult : option RebalanceResult.t;
  pending : nat
}.
End View.







(** A session touching every control: ask for a plan, look at the audit
    tab while it is computed, execute it, come back, ask again, postpone. *)
Definition sessionEvents : list Event :=
  [ClickRebalanceNow; ClickTab audit; TimerFires; ClickExecuteRebalance;
   ClickTab dashboard; ClickRebalanceNow; TimerFires; ClickReviewLater].

(** Asking for the plan of the pending entry and executing it. *)
Definition executeEvents : list Event :=
  [ClickRebalanceNow; TimerFires; ClickExecuteRebalance].

(** The state a run from the initial state ends in. *)
Definition stateAfter (es : list Event) : State.t :=
  match run initialState es with
  | Done s => s
  | _ => initialState
  end.

(** Identifier and status of every entry. *)
Definition ledgerStatus (log : list AuditEntry.t) : list (string * string) :=
  map (fun e => (AuditEntry.id e, AuditEntry.status e)) log.


(** Goals about the literals are settled by running the definitions. *)
Ltac evaluate := repeat split; vm_compute; reflexivity.

(** * Properties *)

(** ** Drift evaluation *)

Lemma driftAlerts_violations (p : Portfolio.t) :
  driftAlerts p = violations 2.5 (Portfolio.holdings p).
Proof. reflexivity. Qed.

Lemma triggered_nonempty (l : list Holding.t) :
  triggered l = true <-> l <> [].
Proof.
  unfold triggered. destruct l as [|h l]; simpl.
  - split; [discriminate | intros H; now contradiction H].
  - split; [discriminate | reflexivity].
Qed.

Section Violations.

Variable thresholdPercent : Js.number.

Lemma violations_In (hs : list Holding.t) (h : Holding.t) :
  In h (violations thresholdPercent hs)
  <-> In h hs /\ exceeds thresholdPercent h = true.
Proof. unfold violations. apply filter_In. Qed.



Lemma triggered_violations (hs : list Holding.t) :
  triggered (violations thresholdPercent hs) = true
  <-> exists h, In h hs /\ exceeds thresholdPercent h = true.
Proof.
  rewrite triggered_nonempty. split.
  - destruct (violations thresholdPercent hs) as [|h l] eqn:E;
      [now intros []|].
    intros _. exists h. apply violations_In. rewrite E. now left.
  - intros [h Hh] E. apply violations_In in Hh. rewrite E in Hh.
    destruct Hh.
Qed.

End Violations.

(** C1.  On the hardcoded portfolio and the threshold 2.5 the evaluation is
    triggered, but the violations come in holdings order: AAPL, GOOGL, BTC,
    VBMFX.  The first entry is AAPL (drift -3.0), not BTC, and the banner,
    whose text names BTC, is filled from that first entry: "BTC is
    underweighted by 3.0%". *)
Theorem driftAlerts_portfolio_first_is_AAPL :
  triggered (driftAlerts portfolio) = true
  /\ map Holding.symbol (driftAlerts portfolio)
     = ["AAPL"; "GOOGL"; "BTC"; "VBMFX"]
  /\ option_map Holding.symbol (hd_error (driftAlerts portfolio)) = Some "AAPL"
  /\ alertBanner portfolio
     = Some {| Banner.count := 4; Banner.subject := "BTC";
               Banner.direction := "under"; Banner.magnitude := 3 |}.
Proof. evaluate. Qed.

(** C2.  For every list of holdings and every threshold, the evaluation is
    triggered exactly when some holding has |drift| > threshold, and exactly
    when the violations list is non-empty; the component's banner condition
    is the instance at the threshold 2.5, and on the dashboard tab the
    banner is rendered exactly then. *)
Theorem triggered_iff_some_violation (t : Js.number) (hs : list Holding.t) :
  (triggered (violations t hs) = true
   <-> exists h, In h hs
                 /\ Js.gt (Js.Math_abs (Holding.drift h)) t = true)
  /\ (triggered (violations t hs) = true <-> violations t hs <> [])
  /\ (forall p : Portfolio.t,
        triggered (driftAlerts p) = true
        <-> exists h, In h (Portfolio.holdings p)
                      /\ Js.gt (Js.Math_abs (Holding.drift h)) 2.5 = true)
  /\ (forall s : State.t,
        State.activeTab s = dashboard ->
        (bannerRendered s = true
         <-> exists h, In h (Portfolio.holdings (State.portfolio s))
                       /\ Js.gt (Js.Math_abs (Holding.drift h)) 2.5 = true)).
Proof.
  split; [apply triggered_violations|].
  split; [apply triggered_nonempty|]. split.
  - intros p. rewrite driftAlerts_violations. apply triggered_violations.
  - intros s Htab. unfold bannerRendered. rewrite Htab. simpl.
    rewrite driftAlerts_violations. apply triggered_violations.
Qed.



(** ** Portfolio totals and allocations *)

(** Two numbers that [===] tells apart are different numbers. *)
Lemma Js_eq_false_neq (a b : Js.number) :
  Js.eq a a = true -> Js.eq a b = false -> a <> b.
Proof. intros Ha Hab E. rewrite <- E in Hab. congruence. Qed.

(** C4, as stated, fails on the hardcoded portfolio: the seven [value]
    fields add up to 103791, the [totalValue] field is 125420.5. *)
Lemma portfolio_totalValue_is_not_holdings_sum :
  Portfolio.totalValue portfolio <> holdingsValue portfolio
  /\ Js.eq (Portfolio.totalValue portfolio) (holdingsValue portfolio) = false.
Proof.
  split; [apply Js_eq_false_neq|]; vm_compute; reflexivity.
Qed.

(** C4, amended.  [totalValue] is a stored field, not derived from the
    holdings.  In the hardcoded portfolio every holding's value is its
    quantity times its price, and the seven values add up to 103791, which
    stays below the stored total of 125420.50. *)
Theorem portfolio_values_and_total :
  forallb valueIsQtyTimesPrice (Portfolio.holdings portfolio) = true
  /\ List.length (Portfolio.holdings portfolio) = 7%nat
  /\ holdingsValue portfolio = 103791
  /\ Portfolio.totalValue portfolio = 125420.50
  /\ Js.gt (Portfolio.totalValue portfolio) (holdingsValue portfolio) = true.
Proof. evaluate. Qed.

(** C5, as stated, fails on the hardcoded data: [current.stocks] is 35, the
    three stock holdings are worth 23021 of 125420.5, i.e. about 18.4%; the
    difference is more than 16 percentage points, whether the share is read
    as a percentage or as a fraction. *)
Lemma portfolio_current_stocks_is_not_share :
  getProp (Portfolio.current portfolio) "stocks" = Some 35
  /\ categoryValue portfolio "stocks" = 23021
  /\ Js.eq (categoryPercent portfolio "stocks") 35 = false
  /\ Js.eq (categoryShare portfolio "stocks") 35 = false
  /\ Js.gt (dist (categoryPercent portfolio "stocks") 35) 16 = true.
Proof. evaluate. Qed.

(** C5, amended.  [portfolio.current] is a stored literal (stocks 35,
    crypto 28, bonds 22, etfs 15, together 100), not computed from the
    holdings.  On the hardcoded data it is the category's share of
    [totalValue] rounded to a whole percent for crypto and bonds, is within
    one percentage point of it for etfs, and is not for stocks. *)
Theorem portfolio_current_versus_shares :
  Portfolio.current portfolio
  = [("stocks", 35); ("crypto", 28); ("bonds", 22); ("etfs", 15)]
  /\ Js.sum (map snd (Portfolio.current portfolio)) = 100
  /\ currentWithin 0.5 portfolio "crypto" = true
  /\ currentWithin 0.5 portfolio "bonds" = true
  /\ currentWithin 1 portfolio "etfs" = true
  /\ currentWithin 0.5 portfolio "etfs" = false
  /\ currentWithin 16 portfolio "stocks" = false.
Proof. evaluate. Qed.

(** ** Trades *)

Lemma netCashFlow_auditLog :
  map (fun e => netCashFlow (AuditEntry.trades e)) auditLog = [25; -70].
Proof. vm_compute. reflexivity. Qed.

(** C6, as stated for a configurable tolerance, fails: with a tolerance of
    0 (or of 20) neither hardcoded trade list balances, the first one being
    the plan the rebalance action returns. *)
Lemma auditLog_trades_exceed_small_tolerance :
  map (fun e => withinTolerance 0 (AuditEntry.trades e)) auditLog
  = [false; false]
  /\ map (fun e => withinTolerance 20 (AuditEntry.trades e)) auditLog
     = [false; false]
  /\ option_map
       (fun r => withinTolerance 20 (RebalanceResult.trades r))
       match run initialState [ClickRebalanceNow; TimerFires] with
       | Done s => State.rebalanceResult s
       | _ => None
       end
     = Some false.
Proof. evaluate. Qed.

(** C6, amended.  The component configures no cash-drag tolerance and its
    trade lists are not cash-neutral: BUY minus SELL is +25 for
    AL-20251018-001, whose trades are the plan the rebalance action returns,
    and -70 for AL-20251015-002.  A list is therefore within a tolerance
    exactly when the tolerance is at least 25, respectively 70. *)
Theorem auditLog_trades_net_cash_flow (tolerance : Js.number) :
  map (fun e => netCashFlow (AuditEntry.trades e)) auditLog = [25; -70]
  /\ map (fun e => withinTolerance tolerance (AuditEntry.trades e)) auditLog
     = [Js.le 25 tolerance; Js.le 70 tolerance]
  /\ (exists s r,
        run initialState [ClickRebalanceNow; TimerFires] = Done s
        /\ State.rebalanceResult s = Some r
        /\ map AuditEntry.trades auditLog
           = [RebalanceResult.trades r;
              [Trade.mk "BUY" "GOOGL" 15 2134; Trade.mk "SELL" "VBMFX" 20 2204]]
        /\ netCashFlow (RebalanceResult.trades r) = 25
        /\ withinTolerance tolerance (RebalanceResult.trades r)
           = Js.le 25 tolerance).
Proof.
  assert (E0 : forall ts, Js.Math_abs (netCashFlow ts) = 25 ->
                          withinTolerance tolerance ts = Js.le 25 tolerance).
  { intros ts E. unfold withinTolerance. now rewrite E. }
  assert (E1 : forall ts, Js.Math_abs (netCashFlow ts) = 70 ->
                          withinTolerance tolerance ts = Js.le 70 tolerance).
  { intros ts E. unfold withinTolerance. now rewrite E. }
  split; [apply netCashFlow_auditLog|]. split.
  - unfold auditLog, map, AuditEntry.trades.
    rewrite E0 by (vm_compute; reflexivity).
    rewrite E1 by (vm_compute; reflexivity). reflexivity.
  - eexists. eexists. split; [vm_compute; reflexivity|].
    split; [reflexivity|]. split; [reflexivity|].
    split; [vm_compute; reflexivity|].
    apply E0. vm_compute. reflexivity.
Qed.

(** ** Events *)

Lemma step_frame (s : State.t) (e : Event) (s' : State.t) :
  step s e = Done s' ->
  State.portfolio s' = State.portfolio s
  /\ State.auditLog s' = State.auditLog s.
Proof.
  destruct e; simpl.
  - intros [= <-]. now split.
  - destruct (rebalanceNowOffered s); [|discriminate].
    intros [= <-]. now split.
  - destruct (State.timers s) as [|captured rest]; [discriminate|].
    destruct captured as [|first more]; simpl; [discriminate|].
    intros [= <-]. now split.
  - destruct (modalShown s); [|discriminate].
    intros [= <-]. now split.
  - destruct (modalShown s); [|discriminate].
    intros [= <-]. now split.
Qed.

Lemma run_frame (es : list Event) (s s' : State.t) :
  run s es = Done s' ->
  State.portfolio s' = State.portfolio s
  /\ State.auditLog s' = State.auditLog s.
Proof.
  revert s. induction es as [|e es IH]; simpl; intros s.
  - intros [= <-]. now split.
  - destruct (step s e) as [s1| |err] eqn:E; simpl; try discriminate.
    intros H. apply IH in H. apply step_frame in E.
    destruct H as [Hp Hl], E as [Ep El]. split; congruence.
Qed.

Lemma step_consistent (s : State.t) (e : Event) (s' : State.t) :
  consistent s -> step s e = Done s' -> consistent s'.
Proof.
  unfold consistent. intros [Ht Hr]. destruct e; simpl.
  - intros [= <-]. simpl. now split.
  - destruct (rebalanceNowOffered s); [|discriminate].
    intros [= <-]. simpl. split; [|assumption].
    apply Forall_app. split; [assumption|]. now repeat constructor.
  - destruct (State.timers s) as [|captured rest] eqn:Et; [discriminate|].
    inversion Ht as [|c r Hc Hrest]; subst.
    destruct (State.auditLog s) as [|first more] eqn:El; simpl;
      [discriminate|].
    intros [= <-]. simpl. rewrite El, Et. split; [assumption|]. now right.
  - destruct (modalShown s); [|discriminate].
    intros [= <-]. simpl. now split.
  - destruct (modalShown s); [|discriminate].
    intros [= <-]. simpl. now split.
Qed.

Lemma run_consistent (es : list Event) (s s' : State.t) :
  consistent s -> run s es = Done s' -> consistent s'.
Proof.
  revert s. induction es as [|e es IH]; simpl; intros s Hs.
  - now intros [= <-].
  - destruct (step s e) as [s1| |err] eqn:E; simpl; try discriminate.
    apply IH. eapply step_consistent; eassumption.
Qed.

Lemma initialState_consistent : consistent initialState.
Proof. split; [constructor | now left]. Qed.

(** Over a non-empty ledger the timer callback always finds [auditLog[0]]:
    no run throws. *)
Lemma run_never_throws (es : list Event) (s : State.t) (err : JsError) :
  consistent s -> State.auditLog s <> [] -> run s es <> Throws err.
Proof.
  revert s. induction es as [|e es IH]; simpl; intros s Hs Hne; [discriminate|].
  destruct (step s e) as [s1| |x] eqn:E; simpl; try discriminate.
  - apply IH; [eapply step_consistent; eassumption|].
    apply step_frame in E. destruct E as [_ El]. now rewrite El.
  - exfalso. destruct e; simpl in E.
    + discriminate.
    + destruct (rebalanceNowOffered s); discriminate.
    + destruct Hs as [Ht _].
      destruct (State.timers s) as [|captured rest]; [discriminate|].
      inversion Ht as [|c r Hc Hrest]; subst.
      destruct (State.auditLog s); [now contradiction Hne | discriminate].
    + destruct (modalShown s); discriminate.
    + destruct (modalShown s); discriminate.
Qed.

(** Tab clicks in front of other events only move [activeTab]. *)
Lemma run_tabs (tabs : list Tab) (s : State.t) (rest : list Event) :
  exists s1,
    run s (map ClickTab tabs ++ rest) = run s1 rest
    /\ State.timers s1 = State.timers s
    /\ State.auditLog s1 = State.auditLog s.
Proof.
  revert s. induction tabs as [|tab tabs IH]; intros s; simpl.
  - now exists s.
  - destruct (IH (setActiveTab tab s)) as (s1 & E & Ht & Hl).
    exists s1. now rewrite E.
Qed.

(** C10.  No sequence of events (tab changes, Rebalance Now, the timer,
    Execute Rebalance, Review Later) changes the [portfolio] or the
    [auditLog] cell; and the modal result, when there is one, is the copy of
    the [trades], [impact] and [aiConfidence] of [auditLog[0]]. *)
Theorem events_leave_portfolio_and_auditLog
    (s : State.t) (es : list Event) (s' : State.t) :
  run s es = Done s' ->
  State.portfolio s' = State.portfolio s
  /\ State.auditLog s' = State.auditLog s
  /\ (consistent s ->
      State.rebalanceResult s' = None
      \/ State.rebalanceResult s' = planOf (State.auditLog s)).
Proof.
  intros H. destruct (run_frame _ _ H) as [Hp Hl].
  split; [assumption|]. split; [assumption|].
  intros Hs. destruct (run_consistent _ Hs H) as [_ Hr].
  now rewrite <- Hl.
Qed.

Lemma events_leave_portfolio_and_auditLog_witness :
  run initialState sessionEvents = Done (stateAfter sessionEvents)
  /\ consistent initialState
  /\ State.portfolio (stateAfter sessionEvents) = portfolio
  /\ State.auditLog (stateAfter sessionEvents) = auditLog
  /\ (State.rebalanceResult (stateAfter sessionEvents) = None
      \/ State.rebalanceResult (stateAfter sessionEvents) = planOf auditLog).
Proof.
  assert (H : run initialState sessionEvents = Done (stateAfter sessionEvents))
    by (vm_compute; reflexivity).
  destruct (events_leave_portfolio_and_auditLog initialState sessionEvents H)
    as (Hp & Hl & Hr).
  split; [exact H|]. split; [exact initialState_consistent|].
  split; [exact Hp|]. split; [exact Hl|].
  exact (Hr initialState_consistent).
Defined.

(** C7.  Two runs of the rebalance action from states with the same audit
    log, whatever else differs between the states and whatever tabs are
    visited while the timer is pending, both return, and return the same
    trades, impact and confidence: those of the first audit entry. *)
Theorem handleRebalance_deterministic
    (s1 s2 : State.t) (tabs1 tabs2 : list Tab) :
  State.auditLog s1 = State.auditLog s2 ->
  State.auditLog s1 <> [] ->
  State.timers s1 = [] -> State.timers s2 = [] ->
  rebalanceNowOffered s1 = true -> rebalanceNowOffered s2 = true ->
  exists s1' s2' r,
    run s1 (ClickRebalanceNow :: map ClickTab tabs1 ++ [TimerFires]) = Done s1'
    /\ run s2 (ClickRebalanceNow :: map ClickTab tabs2 ++ [TimerFires])
       = Done s2'
    /\ State.rebalanceResult s1' = Some r
    /\ State.rebalanceResult s2' = Some r
    /\ planOf (State.auditLog s1) = Some r.
Proof.
  intros Hlog Hne Ht1 Ht2 Ho1 Ho2.
  assert (G : forall s tabs first more,
             State.auditLog s = first :: more -> State.timers s = [] ->
             rebalanceNowOffered s = true ->
             exists s',
               run s (ClickRebalanceNow :: map ClickTab tabs ++ [TimerFires])
               = Done s'
               /\ State.rebalanceResult s' = planOf (first :: more)).
  { intros s tabs first more El Et Ho. simpl. rewrite Ho. simpl.
    destruct (run_tabs tabs (handleRebalance s) [TimerFires])
      as (s0 & E & Et0 & El0).
    rewrite E. simpl in Et0. rewrite Et in Et0. simpl in Et0.
    simpl. rewrite Et0, El. simpl. eexists. split; reflexivity. }
  destruct (State.auditLog s1) as [|first more] eqn:El1; [now contradiction Hne|].
  destruct (G s1 tabs1 first more El1 Ht1 Ho1) as (s1' & R1 & P1).
  destruct (G s2 tabs2 first more (eq_sym Hlog) Ht2 Ho2) as (s2' & R2 & P2).
  exists s1', s2'. eexists. repeat split; eassumption || reflexivity.
Qed.

Lemma handleRebalance_deterministic_witness :
  State.auditLog initialState = State.auditLog (setShowRebalanceModal true initialState)
  /\ State.auditLog initialState <> []
  /\ exists s1' s2' r,
       run initialState
           (ClickRebalanceNow :: map ClickTab [audit; settings] ++ [TimerFires])
       = Done s1'
       /\ run (setShowRebalanceModal true initialState)
              (ClickRebalanceNow :: map ClickTab [] ++ [TimerFires])
          = Done s2'
       /\ State.rebalanceResult s1' = Some r
       /\ State.rebalanceResult s2' = Some r
       /\ planOf (State.auditLog initialState) = Some r.
Proof.
  split; [reflexivity|]. split; [discriminate|].
  apply (handleRebalance_deterministic initialState
           (setShowRebalanceModal true initialState) [audit; settings] []);
    try reflexivity; discriminate.
Defined.

(** C9, as stated, fails: executing the plan of the pending entry
    AL-20251018-001 is a request the status graph does not allow, yet the
    handler raises no error; it returns normally, with the modal closed and
    the audit tab active. *)
Lemma execute_on_pending_entry_raises_nothing :
  allowedTransition "pending" "executed" = false
  /\ ledgerStatus (State.auditLog (stateAfter [ClickRebalanceNow; TimerFires]))
     = [("AL-20251018-001", "pending"); ("AL-20251015-002", "executed")]
  /\ modalShown (stateAfter [ClickRebalanceNow; TimerFires]) = true
  /\ step (stateAfter [ClickRebalanceNow; TimerFires]) ClickExecuteRebalance
     = Done (State.mk audit false false (planOf auditLog) portfolio auditLog [])
  /\ run initialState executeEvents
     = Done (State.mk audit false false (planOf auditLog) portfolio auditLog []).
Proof. evaluate. Qed.

(** C9, amended.  No sequence of events changes the status of any audit
    entry, so no status change outside pending -> approved -> executed /
    pending -> rejected ever happens; Execute Rebalance never raises an
    error: where it is offered it closes the modal and activates the audit
    tab, and the entries keep their statuses (AL-20251018-001 stays
    pending). *)
Theorem events_never_change_status
    (s : State.t) (es : list Event) (s' : State.t) :
  run s es = Done s' ->
  ledgerStatus (State.auditLog s') = ledgerStatus (State.auditLog s)
  /\ (forall err, step s' ClickExecuteRebalance <> Throws err)
  /\ (forall s'', step s' ClickExecuteRebalance = Done s'' ->
        s'' = setActiveTab audit (setShowRebalanceModal false s')
        /\ ledgerStatus (State.auditLog s'') = ledgerStatus (State.auditLog s)).
Proof.
  intros H. destruct (run_frame _ _ H) as [_ Hl]. rewrite Hl.
  split; [reflexivity|]. split.
  - intros err. simpl. destruct (modalShown s'); discriminate.
  - intros s''. simpl. destruct (modalShown s'); [|discriminate].
    intros [= <-]. simpl. now rewrite Hl.
Qed.

Lemma events_never_change_status_witness :
  run initialState [ClickRebalanceNow; TimerFires]
  = Done (stateAfter [ClickRebalanceNow; TimerFires])
  /\ (ledgerStatus (State.auditLog (stateAfter [ClickRebalanceNow; TimerFires]))
      = [("AL-20251018-001", "pending"); ("AL-20251015-002", "executed")]
      /\ (forall err,
            step (stateAfter [ClickRebalanceNow; TimerFires])
                 ClickExecuteRebalance <> Throws err)
      /\ (forall s'',
            step (stateAfter [ClickRebalanceNow; TimerFires])
                 ClickExecuteRebalance = Done s'' ->
            s'' = setActiveTab audit
                    (setShowRebalanceModal false
                       (stateAfter [ClickRebalanceNow; TimerFires]))
            /\ ledgerStatus (State.auditLog s'')
               = [("AL-20251018-001", "pending");
                  ("AL-20251015-002", "executed")])).
Proof.
  split; [vm_compute; reflexivity|].
  apply (events_never_change_status initialState
           [ClickRebalanceNow; TimerFires]).
  vm_compute; reflexivity.
Defined.

(** ** The ledger carries no integrity data *)








